(** * The Mesh visual of vispy (vispy/scene/visuals/mesh.py)

    A shallow embedding of the [Mesh] visual: the materialisation of mesh data
    into GPU buffers ([_update_data]), the composition of the shading program,
    the [shading] property, [set_data] and [draw].

    The Python object is a record; methods are computations in a state and
    exception monad over that record, so that what a method had already
    written when it raised stays visible.  The collaborators that are not part
    of the file (the mesh container, the GLSL builtins) are interfaces. *)

From Stdlib Require Import ZArith QArith Lia.
From stdpp Require Import base option list strings gmap.

Close Scope Q_scope.
Open Scope string_scope.

(** ** Python values, exceptions *)

(** The values a caller may assign to the [shading] property. *)
Inductive py_value : Type :=
| PyNone
| PyStr (s : string)
| PyInt (n : Z).

#[global] Instance py_value_eq_dec : EqDecision py_value.
Proof. solve_decision. Defined.

(** Python's [==] on these values. *)
Definition py_eq (a b : py_value) : bool := bool_decide (a = b).

(** [value in (t0, t1, ...)] *)
Fixpoint py_in (value : py_value) (t : list py_value) : bool :=
  match t with
  | [] => false
  | x :: t' => py_eq value x || py_in value t'
  end.

Inductive exn : Type :=
| AssertionError
| InvalidMeshError
| PyError (msg : string).

Inductive result (A : Type) : Type :=
| Ok (a : A)
| Raise (e : exn).
Arguments Ok {A} a.
Arguments Raise {A} e.

(** ** Arrays and GPU buffers *)

Definition vec3 (F : Type) : Type := (F * F * F)%type.
Definition vec4 (F : Type) : Type := (F * F * F * F)%type.

(** A face is a triple of vertex indices. *)
Definition face : Type := (nat * nat * nat)%type.

(** The [indexed] keyword of the mesh container's accessors:
    [indexed=None] or [indexed='faces']. *)
Inductive indexed_arg : Type :=
| indexed_None
| indexed_faces.

(** A gloo buffer is an object: it has an identity, and [set_data] changes
    its contents in place.  Arrays indexed by faces are stored flattened, one
    entry per face corner. *)
Record VertexBuffer (A : Type) : Type := mkVertexBuffer {
  vb_id : nat;
  vb_data : list A
}.
Arguments mkVertexBuffer {A} vb_id vb_data.
Arguments vb_id {A} v.
Arguments vb_data {A} v.

Record IndexBuffer : Type := mkIndexBuffer {
  ib_id : nat;
  ib_data : list face
}.

Definition VertexBuffer_set_data {A} (b : VertexBuffer A) (data : list A)
  : VertexBuffer A :=
  mkVertexBuffer (vb_id b) data.

Definition IndexBuffer_set_data (b : IndexBuffer) (data : list face)
  : IndexBuffer :=
  mkIndexBuffer (ib_id b) data.

(** ** Snippet templates *)

Definition vertex_template : string :=
"
void main() {
   gl_Position = $transform($position);
}
".

Definition fragment_template : string :=
"
void main() {
  gl_FragColor = $color;
}
".

Definition phong_template : string :=
"
vec4 phong_shading(vec4 color) {
    vec3 norm = normalize($normal.xyz);
    vec3 light = normalize($light_dir.xyz);
    float p = dot(light, norm);
    p = (p < 0. ? 0. : p);
    vec4 diffuse = $light_color * p;
    diffuse.a = 1.0;
    p = dot(reflect(light, norm), vec3(0,0,1));
    if (p < 0.0) {
        p = 0.0;
    }
    vec4 specular = $light_color * 5.0 * pow(p, 100.);
    return color * ($ambient + diffuse) + specular;
}
".

Definition vec3to4_code : string :=
"
vec4 vec3to4(vec3 xyz) {
    return vec4(xyz, 1.0);
}
".

(** ** Scalars

    [F] is the type of the floating-point numbers held in arrays and
    uniforms.  The Python code never computes on them; the numeric kernels
    that do (in the mesh container and in GLSL) are operations of the
    interface. *)
Class Scalar (F : Type) : Type := {
  (** the number denoted by a literal, given by its value: [1], [1.] and
      [1.0] are all [lit 1] *)
  lit : Q -> F;
  (** GLSL arithmetic on [float] *)
  fadd : F -> F -> F;
  fmul : F -> F -> F;
  fltb : F -> F -> bool;
  (** GLSL builtins [pow], [normalize], [dot], [reflect] *)
  gl_pow : F -> F -> F;
  gl_normalize : vec3 F -> vec3 F;
  gl_dot : vec3 F -> vec3 F -> F;
  gl_reflect : vec3 F -> vec3 F -> vec3 F
}.

(** ** Shader expressions

    What can be assigned to a placeholder of a program or of a [Function]:
    a Python tuple (becomes a uniform), a vertex buffer (becomes an
    attribute; the buffer object is referred to by its identity), a
    [Varying], a [Function] object with its own placeholder bindings, or the
    call of a function on arguments. *)
#[warnings="-register-all"]
Inductive expr (F : Type) : Type :=
| Uniform3 (v : vec3 F)
| Uniform4 (v : vec4 F)
| Attribute (buffer : nat)
| Varying (name : string) (dtype : string)
| Function (code : string) (binds : gmap string (expr F))
| Call (f : expr F) (args : list (expr F)).
Arguments Uniform3 {F} v.
Arguments Uniform4 {F} v.
Arguments Attribute {F} buffer.
Arguments Varying {F} name dtype.
Arguments Function {F} code binds.
Arguments Call {F} f args.

(** [f[name] = value] on a [Function] object; only a [Function] has
    placeholders. *)
Definition Function_setitem {F} (f : expr F) (name : string) (value : expr F)
  : expr F :=
  match f with
  | Function code binds => Function code (<[name := value]> binds)
  | _ => f
  end.

(** The key under which a [Varying] is stored in a program's bindings. *)
Definition varying_key {F} (v : expr F) : string :=
  match v with
  | Varying name _ => name
  | _ => ""
  end.

Definition vec3to4 {F} : expr F := Function vec3to4_code ∅.

(** [ModularProgram(vcode, fcode)] with its [vert] and [frag] bindings. *)
Record ModularProgram (F : Type) : Type := mkProgram {
  vcode : string;
  fcode : string;
  vert : gmap string (expr F);
  frag : gmap string (expr F)
}.
Arguments mkProgram {F} vcode fcode vert frag.
Arguments vcode {F} m.
Arguments fcode {F} m.
Arguments vert {F} m.
Arguments frag {F} m.

(** Calls that leave the visual: the base class's [update], gloo's render
    state and the program's draw call (with the identity of the index buffer
    when one is passed). *)
Inductive gl_call : Type :=
| visual_update
| gloo_set_state (preset : string) (depth_test : bool) (cull_face : string)
| program_draw (mode : string) (indices : option nat).

(** The draw event: [event.render_transform.shader_map()]. *)
Record DrawEvent (F : Type) : Type := mkDrawEvent {
  render_transform_shader_map : expr F
}.
Arguments mkDrawEvent {F} _.
Arguments render_transform_shader_map {F} d.

(** ** The mesh container's interface

    [vispy.util.meshdata.MeshData] as the visual uses it: the constructor,
    three predicates and six accessors, each of which may raise. *)
Class MeshDataAPI (F : Type) (MD : Type) : Type := {
  MeshData : option (list (vec3 F)) -> option (list face) ->
             option (list (vec4 F)) -> option (list (vec4 F)) -> MD;
  has_face_indexed_data : MD -> bool;
  has_vertex_color : MD -> bool;
  has_face_color : MD -> bool;
  vertices : MD -> indexed_arg -> result (list (vec3 F));
  faces : MD -> result (list face);
  vertex_normals : MD -> indexed_arg -> result (list (vec3 F));
  face_normals : MD -> indexed_arg -> result (list (vec3 F));
  vertex_colors : MD -> indexed_arg -> result (list (vec4 F));
  face_colors : MD -> indexed_arg -> result (list (vec4 F))
}.

(** ** The monad of methods: state, and exceptions that keep the state

    A method runs on the object [S] and either returns or raises; in both
    cases the object is left as the method had written it so far. *)

Definition M (S A : Type) : Type := S -> result A * S.

Definition ret {S A} (a : A) : M S A := fun s => (Ok a, s).

Definition bind {S A B} (m : M S A) (k : A -> M S B) : M S B :=
  fun s =>
    match m s with
    | (Ok a, s') => k a s'
    | (Raise e, s') => (Raise e, s')
    end.

Definition raise {S A} (e : exn) : M S A := fun s => (Raise e, s).

(** Read an attribute. *)
Definition gets {S A} (f : S -> A) : M S A := fun s => (Ok (f s), s).

(** Assign an attribute, or mutate an object held in one. *)
Definition modify {S} (f : S -> S) : M S unit := fun s => (Ok tt, f s).

(** Call a collaborator that returns or raises. *)
Definition call {S A} (r : result A) : M S A := fun s => (r, s).

(** [assert b] *)
Definition assert {S} (b : bool) : M S unit :=
  if b then ret tt else raise AssertionError.

(** [if b: body] *)
Definition when {S} (b : bool) (body : M S unit) : M S unit :=
  if b then body else ret tt.

Declare Scope method_scope.
Delimit Scope method_scope with method.
Notation "x <- m ;; k" := (bind m (fun x => k))
  (at level 100, m at next level, right associativity) : method_scope.
Notation "m ;; k" := (bind m (fun _ => k))
  (at level 100, right associativity) : method_scope.

(** ** The visual *)

Section Visual.

Context {F : Type} {SF : Scalar F} {MD : Type} {API : MeshDataAPI F MD}.

(** The attributes of a [Mesh] object, and the two pieces of the world it
    talks to: [gl_next_id], the identity the next buffer object gets, and
    [gl_trace], the calls that left the visual, oldest first. *)
Record Mesh : Type := mkMesh {
  _program : ModularProgram F;
  _vertices : VertexBuffer (vec3 F);
  _normals : VertexBuffer (vec3 F);
  _faces : IndexBuffer;
  _colors : VertexBuffer (vec4 F);
  _indexed : option bool;
  _color : vec4 F;
  _color_var : expr F;
  _normal_var : expr F;
  _shading : py_value;
  _meshdata : MD;
  _data_changed : bool;
  gl_next_id : nat;
  gl_trace : list gl_call
}.

Definition set_program (x : ModularProgram F) (s : Mesh) : Mesh :=
  mkMesh x (_vertices s) (_normals s) (_faces s) (_colors s) (_indexed s)
         (_color s) (_color_var s) (_normal_var s) (_shading s) (_meshdata s)
         (_data_changed s) (gl_next_id s) (gl_trace s).
Definition set_vertices (x : VertexBuffer (vec3 F)) (s : Mesh) : Mesh :=
  mkMesh (_program s) x (_normals s) (_faces s) (_colors s) (_indexed s)
         (_color s) (_color_var s) (_normal_var s) (_shading s) (_meshdata s)
         (_data_changed s) (gl_next_id s) (gl_trace s).
Definition set_normals (x : VertexBuffer (vec3 F)) (s : Mesh) : Mesh :=
  mkMesh (_program s) (_vertices s) x (_faces s) (_colors s) (_indexed s)
         (_color s) (_color_var s) (_normal_var s) (_shading s) (_meshdata s)
         (_data_changed s) (gl_next_id s) (gl_trace s).
Definition set_faces (x : IndexBuffer) (s : Mesh) : Mesh :=
  mkMesh (_program s) (_vertices s) (_normals s) x (_colors s) (_indexed s)
         (_color s) (_color_var s) (_normal_var s) (_shading s) (_meshdata s)
         (_data_changed s) (gl_next_id s) (gl_trace s).
Definition set_colors (x : VertexBuffer (vec4 F)) (s : Mesh) : Mesh :=
  mkMesh (_program s) (_vertices s) (_normals s) (_faces s) x (_indexed s)
         (_color s) (_color_var s) (_normal_var s) (_shading s) (_meshdata s)
         (_data_changed s) (gl_next_id s) (gl_trace s).
Definition set_indexed (x : option bool) (s : Mesh) : Mesh :=
  mkMesh (_program s) (_vertices s) (_normals s) (_faces s) (_colors s) x
         (_color s) (_color_var s) (_normal_var s) (_shading s) (_meshdata s)
         (_data_changed s) (gl_next_id s) (gl_trace s).
Definition set_color (x : vec4 F) (s : Mesh) : Mesh :=
  mkMesh (_program s) (_vertices s) (_normals s) (_faces s) (_colors s)
         (_indexed s) x (_color_var s) (_normal_var s) (_shading s)
         (_meshdata s) (_data_changed s) (gl_next_id s) (gl_trace s).
Definition set_shading (x : py_value) (s : Mesh) : Mesh :=
  mkMesh (_program s) (_vertices s) (_normals s) (_faces s) (_colors s)
         (_indexed s) (_color s) (_color_var s) (_normal_var s) x
         (_meshdata s) (_data_changed s) (gl_next_id s) (gl_trace s).
Definition set_meshdata (x : MD) (s : Mesh) : Mesh :=
  mkMesh (_program s) (_vertices s) (_normals s) (_faces s) (_colors s)
         (_indexed s) (_color s) (_color_var s) (_normal_var s) (_shading s)
         x (_data_changed s) (gl_next_id s) (gl_trace s).
Definition set_data_changed (x : bool) (s : Mesh) : Mesh :=
  mkMesh (_program s) (_vertices s) (_normals s) (_faces s) (_colors s)
         (_indexed s) (_color s) (_color_var s) (_normal_var s) (_shading s)
         (_meshdata s) x (gl_next_id s) (gl_trace s).
Definition set_next_id (x : nat) (s : Mesh) : Mesh :=
  mkMesh (_program s) (_vertices s) (_normals s) (_faces s) (_colors s)
         (_indexed s) (_color s) (_color_var s) (_normal_var s) (_shading s)
         (_meshdata s) (_data_changed s) x (gl_trace s).
Definition set_trace (x : list gl_call) (s : Mesh) : Mesh :=
  mkMesh (_program s) (_vertices s) (_normals s) (_faces s) (_colors s)
         (_indexed s) (_color s) (_color_var s) (_normal_var s) (_shading s)
         (_meshdata s) (_data_changed s) (gl_next_id s) x.

Open Scope method_scope.

(** *** Construction and data *)

(** [self.update()] of the base class: a notification to the scene. *)
Definition update : M Mesh unit :=
  modify (fun s => set_trace (gl_trace s ++ [visual_update]) s).

Definition mesh_data_changed : M Mesh unit :=
  modify (set_data_changed true) ;;
  update.

Definition set_data (vertices_ : option (list (vec3 F)))
    (faces_ : option (list face))
    (vertex_colors_ face_colors_ : option (list (vec4 F)))
    (meshdata : option MD) (color : option (vec4 F)) : M Mesh unit :=
  match meshdata with
  | Some md => modify (set_meshdata md)
  | None =>
      modify (set_meshdata
                (MeshData vertices_ faces_ vertex_colors_ face_colors_))
  end ;;
  match color with
  | Some c => modify (set_color c)
  | None => ret tt
  end ;;
  mesh_data_changed.

(** *** The [shading] property *)

Definition shading : M Mesh py_value := gets _shading.

Definition shading_setter (value : py_value) : M Mesh unit :=
  assert (py_in value [PyNone; PyStr "flat"; PyStr "smooth"]) ;;
  modify (set_shading value).

(** *** Materialisation and program composition *)

(** [gloo.VertexBuffer(data)]: a new buffer object. *)
Definition gloo_VertexBuffer {A} (data : list A) : M Mesh (VertexBuffer A) :=
  fun s => (Ok (mkVertexBuffer (gl_next_id s) data),
            set_next_id (S (gl_next_id s)) s).

(** [self._program.vert[key] = value] and [self._program.frag[key] = value] *)
Definition vert_setitem (key : string) (value : expr F) : M Mesh unit :=
  modify (fun s =>
    let p := _program s in
    set_program (mkProgram (vcode p) (fcode p) (<[key := value]> (vert p))
                           (frag p)) s).

Definition frag_setitem (key : string) (value : expr F) : M Mesh unit :=
  modify (fun s =>
    let p := _program s in
    set_program (mkProgram (vcode p) (fcode p) (vert p)
                           (<[key := value]> (frag p))) s).

(** A buffer bound to a placeholder is bound as an object. *)
Definition attribute_of {A} (b : VertexBuffer A) : expr F :=
  Attribute (vb_id b).

Definition _update_data : M Mesh unit :=
  md <- gets _meshdata ;;

  (* Update vertex/index buffers *)
  (sh <- shading ;;
   if py_eq sh (PyStr "smooth") && negb (has_face_indexed_data md) then
     v <- call (vertices md indexed_None) ;;
     modify (fun s => set_vertices (VertexBuffer_set_data (_vertices s) v) s) ;;
     n <- call (vertex_normals md indexed_None) ;;
     modify (fun s => set_normals (VertexBuffer_set_data (_normals s) n) s) ;;
     f <- call (faces md) ;;
     modify (fun s => set_faces (IndexBuffer_set_data (_faces s) f) s) ;;
     modify (set_indexed (Some true)) ;;
     when (has_vertex_color md)
       (c <- call (vertex_colors md indexed_None) ;;
        modify (fun s => set_colors (VertexBuffer_set_data (_colors s) c) s)) ;;
     when (has_face_color md)
       (c <- call (face_colors md indexed_None) ;;
        modify (fun s => set_colors (VertexBuffer_set_data (_colors s) c) s))
   else
     v <- call (vertices md indexed_faces) ;;
     b <- gloo_VertexBuffer v ;;
     modify (set_vertices b) ;;
     (sh <- shading ;;
      if py_eq sh (PyStr "smooth") then
        n <- call (vertex_normals md indexed_faces) ;;
        modify (fun s => set_normals (VertexBuffer_set_data (_normals s) n) s)
      else
        sh <- shading ;;
        if py_eq sh (PyStr "flat") then
          n <- call (face_normals md indexed_faces) ;;
          modify (fun s =>
                    set_normals (VertexBuffer_set_data (_normals s) n) s)
        else ret tt) ;;
     modify (set_indexed (Some false)) ;;
     if has_vertex_color md then
       c <- call (vertex_colors md indexed_faces) ;;
       modify (fun s => set_colors (VertexBuffer_set_data (_colors s) c) s)
     else if has_face_color md then
       c <- call (face_colors md indexed_faces) ;;
       modify (fun s => set_colors (VertexBuffer_set_data (_colors s) c) s)
     else ret tt) ;;

  (* Position input handling *)
  vs <- gets _vertices ;;
  vert_setitem "position" (Call vec3to4 [attribute_of vs]) ;;

  (* Color input handling *)
  color <- (if negb (has_vertex_color md) && negb (has_face_color md) then
              (* assign uniform to color varying *)
              c <- gets _color ;; ret (Uniform4 c)
            else
              (* assign attribute to color varying *)
              cs <- gets _colors ;; ret (attribute_of cs)) ;;
  color_var <- gets _color_var ;;
  vert_setitem (varying_key color_var) color ;;

  (* Shading *)
  sh <- shading ;;
  if py_eq sh PyNone then
    frag_setitem "color" color_var
  else
    let phong := Function phong_template ∅ in
    (* Normal data comes via vertex shader *)
    normal_var <- gets _normal_var ;;
    ns <- gets _normals ;;
    vert_setitem (varying_key normal_var) (attribute_of ns) ;;
    let phong := Function_setitem phong "normal" normal_var in
    (* Additional phong properties *)
    let phong := Function_setitem phong "light_dir"
                   (Uniform3 (lit 1, lit 1, lit 1)%Q) in
    let phong := Function_setitem phong "light_color"
                   (Uniform4 (lit 1, lit 1, lit 1, lit 1)%Q) in
    let phong := Function_setitem phong "ambient"
                   (Uniform4 (lit 0.3, lit 0.3, lit 0.3, lit 1)%Q) in
    frag_setitem "color" (Call phong [color_var]).

(** *** Drawing *)

(** Truth value of [self._indexed], which is [None], [True] or [False]. *)
Definition truthy (o : option bool) : bool :=
  match o with
  | Some b => b
  | None => false
  end.

Definition draw (event : DrawEvent F) : M Mesh unit :=
  modify (fun s =>
    set_trace (gl_trace s ++ [gloo_set_state "translucent" true
                                             "front_and_back"]) s) ;;
  changed <- gets _data_changed ;;
  when changed _update_data ;;

  vert_setitem "transform" (render_transform_shader_map event) ;;

  (* Draw *)
  ix <- gets _indexed ;;
  if truthy ix then
    fs <- gets _faces ;;
    modify (fun s =>
      set_trace (gl_trace s ++ [program_draw "triangles" (Some (ib_id fs))]) s)
  else
    modify (fun s =>
      set_trace (gl_trace s ++ [program_draw "triangles" None]) s).

(** *** Construction *)

(** The default of the [color] argument, [(0.5, 0.5, 1, 1)]. *)
Definition default_color : vec4 F := (lit 0.5, lit 0.5, lit 1, lit 1)%Q.

(** The object as [__init__] has it just before its two last statements.
    The three attributes those statements assign for the first time
    ([_shading], [_meshdata], [_data_changed]) do not exist yet in Python;
    here they hold a value that is overwritten, or never seen because
    [__init__] raises. *)
Definition blank (color : vec4 F) (meshdata0 : MD) : Mesh := {|
  _program := mkProgram vertex_template fragment_template ∅ ∅;
  _vertices := mkVertexBuffer 0 (replicate 300 (lit 0, lit 0, lit 0)%Q);
  _normals := mkVertexBuffer 1 [];
  _faces := mkIndexBuffer 2 [];
  _colors := mkVertexBuffer 3 [];
  _indexed := None;
  _color := color;
  _color_var := Varying "v_color" "vec4";
  _normal_var := Varying "v_normal" "vec3";
  _shading := PyNone;
  _meshdata := meshdata0;
  _data_changed := false;
  gl_next_id := 4;
  gl_trace := []
|}.

Definition __init__ (vertices_ : option (list (vec3 F)))
    (faces_ : option (list face))
    (vertex_colors_ face_colors_ : option (list (vec4 F)))
    (color : vec4 F) (meshdata : option MD) (shading_ : py_value)
  : result Mesh :=
  let self := blank color
                (default (MeshData vertices_ faces_ vertex_colors_ face_colors_)
                         meshdata) in
  match (shading_setter shading_ ;;
         set_data vertices_ faces_ vertex_colors_ face_colors_ meshdata None)
          self with
  | (Ok _, self') => Ok self'
  | (Raise e, _) => Raise e
  end.

End Visual.

(** ** The mesh container *)

(** The floating-point kernels of the mesh container: the normal of a
    triangle from its three corners, and the normal of a vertex from the
    normals of the faces that meet in it. *)
Class NormalKernels (F : Type) : Type := {
  triangle_normal : vec3 F -> vec3 F -> vec3 F -> vec3 F;
  blend_normals : list (vec3 F) -> vec3 F
}.

Section Container.

Context {F : Type} {NK : NormalKernels F}.

(** Modelled from the spec: the mesh container (vispy.util.meshdata.MeshData)
    is not among the sources.  Following the data model, a mesh is an ordered
    sequence of vertices, an ordered sequence of faces (triples of vertex
    indices), optional per-vertex colors and optional per-face colors; it
    answers whether it carries face-only data requiring expansion.  Every
    array can be retrieved shared ([indexed=None]) or expanded per face
    corner ([indexed='faces']).  Retrieval fails with [InvalidMeshError] when
    a face refers to a vertex out of range or when a color array does not
    have the length of the vertices, respectively of the faces. *)
Record SpecMeshData : Type := mkSpecMeshData {
  md_vertices : list (vec3 F);
  md_faces : list face;
  md_vertex_colors : option (list (vec4 F));
  md_face_colors : option (list (vec4 F));
  md_face_only : bool
}.

(** Modelled from the spec: a container built from arrays; arguments left
    out give an empty mesh, and such a container carries no face-only
    data. *)
Definition spec_MeshData (vs : option (list (vec3 F)))
    (fs : option (list face)) (vc fc : option (list (vec4 F)))
  : SpecMeshData :=
  mkSpecMeshData (default [] vs) (default [] fs) vc fc false.

(** The three corners of a face, looked up in a per-vertex array. *)
Definition corners {A} (l : list A) (f : face) : result (A * A * A) :=
  match f with
  | (a, b, c) =>
      match l !! a, l !! b, l !! c with
      | Some x, Some y, Some z => Ok (x, y, z)
      | _, _, _ => Raise InvalidMeshError
      end
  end.

(** A per-vertex array indexed by faces: one entry per face corner. *)
Fixpoint by_faces {A} (l : list A) (fs : list face) : result (list A) :=
  match fs with
  | [] => Ok []
  | f :: fs' =>
      match corners l f with
      | Ok (x, y, z) =>
          match by_faces l fs' with
          | Ok r => Ok (x :: y :: z :: r)
          | Raise e => Raise e
          end
      | Raise e => Raise e
      end
  end.

(** A per-face array indexed by faces: each of the 3 corners of a face gets
    the entry of that face. *)
Definition per_corner {A} (l : list A) : list A :=
  flat_map (fun x => [x; x; x]) l.

(** One normal per face. *)
Fixpoint per_face_normals (vs : list (vec3 F)) (fs : list face)
  : result (list (vec3 F)) :=
  match fs with
  | [] => Ok []
  | f :: fs' =>
      match corners vs f with
      | Ok (x, y, z) =>
          match per_face_normals vs fs' with
          | Ok r => Ok (triangle_normal x y z :: r)
          | Raise e => Raise e
          end
      | Raise e => Raise e
      end
  end.

Definition face_has (i : nat) (f : face) : bool :=
  match f with
  | (a, b, c) => bool_decide (a = i) || bool_decide (b = i)
                 || bool_decide (c = i)
  end.

(** The normals of the faces that meet in vertex [i]. *)
Definition normals_around (i : nat) (fs : list face) (fns : list (vec3 F))
  : list (vec3 F) :=
  snd <$> filter (fun p => face_has i (fst p) = true) (zip fs fns).

(** One normal per vertex. *)
Definition per_vertex_normals (vs : list (vec3 F)) (fs : list face)
  : result (list (vec3 F)) :=
  match per_face_normals vs fs with
  | Ok fns => Ok (imap (fun i _ => blend_normals (normals_around i fs fns)) vs)
  | Raise e => Raise e
  end.

Definition spec_vertices (md : SpecMeshData) (indexed : indexed_arg)
  : result (list (vec3 F)) :=
  match indexed with
  | indexed_None => Ok (md_vertices md)
  | indexed_faces => by_faces (md_vertices md) (md_faces md)
  end.

Definition spec_faces (md : SpecMeshData) : result (list face) :=
  Ok (md_faces md).

Definition spec_vertex_normals (md : SpecMeshData) (indexed : indexed_arg)
  : result (list (vec3 F)) :=
  match per_vertex_normals (md_vertices md) (md_faces md) with
  | Ok ns =>
      match indexed with
      | indexed_None => Ok ns
      | indexed_faces => by_faces ns (md_faces md)
      end
  | Raise e => Raise e
  end.

Definition spec_face_normals (md : SpecMeshData) (indexed : indexed_arg)
  : result (list (vec3 F)) :=
  match per_face_normals (md_vertices md) (md_faces md) with
  | Ok ns =>
      match indexed with
      | indexed_None => Ok ns
      | indexed_faces => Ok (per_corner ns)
      end
  | Raise e => Raise e
  end.

Definition spec_vertex_colors (md : SpecMeshData) (indexed : indexed_arg)
  : result (list (vec4 F)) :=
  match md_vertex_colors md with
  | None => Raise (PyError "no vertex colors")
  | Some cs =>
      if bool_decide (length cs = length (md_vertices md)) then
        match indexed with
        | indexed_None => Ok cs
        | indexed_faces => by_faces cs (md_faces md)
        end
      else Raise InvalidMeshError
  end.

Definition spec_face_colors (md : SpecMeshData) (indexed : indexed_arg)
  : result (list (vec4 F)) :=
  match md_face_colors md with
  | None => Raise (PyError "no face colors")
  | Some cs =>
      if bool_decide (length cs = length (md_faces md)) then
        match indexed with
        | indexed_None => Ok cs
        | indexed_faces => Ok (per_corner cs)
        end
      else Raise InvalidMeshError
  end.

#[export] Instance SpecMeshData_API : MeshDataAPI F SpecMeshData := {|
  MeshData := spec_MeshData;
  has_face_indexed_data := md_face_only;
  has_vertex_color md := bool_decide (is_Some (md_vertex_colors md));
  has_face_color md := bool_decide (is_Some (md_face_colors md));
  vertices := spec_vertices;
  faces := spec_faces;
  vertex_normals := spec_vertex_normals;
  face_normals := spec_face_normals;
  vertex_colors := spec_vertex_colors;
  face_colors := spec_face_colors
|}.

(** The invariant of the data model: faces refer to existing vertices, and
    a color array has one entry per vertex, respectively per face. *)
Definition face_in_range (n : nat) (f : face) : bool :=
  match f with
  | (a, b, c) => bool_decide (a < n) && bool_decide (b < n)
                 && bool_decide (c < n)
  end.

Definition mesh_ok (md : SpecMeshData) : bool :=
  forallb (face_in_range (length (md_vertices md))) (md_faces md)
  && match md_vertex_colors md with
     | Some cs => bool_decide (length cs = length (md_vertices md))
     | None => true
     end
  && match md_face_colors md with
     | Some cs => bool_decide (length cs = length (md_faces md))
     | None => true
     end.

End Container.

(** ** The lighting function

    [phong_shading] of [phong_template], with the template variables
    [$normal], [$light_dir], [$light_color] and [$ambient] as arguments.
    GLSL's [*] and [+] on [vec4] work by component, [vec4 * float] scales. *)

Section Lighting.

Context {F : Type} {SF : Scalar F}.

Definition vec4_add (a b : vec4 F) : vec4 F :=
  match a, b with
  | (ar, ag, ab, aa), (br, bg, bb, ba) =>
      (fadd ar br, fadd ag bg, fadd ab bb, fadd aa ba)
  end.

Definition vec4_mul (a b : vec4 F) : vec4 F :=
  match a, b with
  | (ar, ag, ab, aa), (br, bg, bb, ba) =>
      (fmul ar br, fmul ag bg, fmul ab bb, fmul aa ba)
  end.

Definition vec4_scale (a : vec4 F) (k : F) : vec4 F :=
  match a with
  | (ar, ag, ab, aa) => (fmul ar k, fmul ag k, fmul ab k, fmul aa k)
  end.

(** [v.a = x] *)
Definition set_alpha (v : vec4 F) (x : F) : vec4 F :=
  match v with
  | (r, g, b, _) => (r, g, b, x)
  end.

Definition phong_shading (normal light_dir : vec3 F)
    (light_color ambient : vec4 F) (color : vec4 F) : vec4 F :=
  let norm := gl_normalize normal in
  let light := gl_normalize light_dir in
  let p := gl_dot light norm in
  let p := if fltb p (lit 0) then lit 0 else p in
  let diffuse := vec4_scale light_color p in
  let diffuse := set_alpha diffuse (lit 1) in
  let p := gl_dot (gl_reflect light norm) (lit 0, lit 0, lit 1) in
  let p := if fltb p (lit 0) then lit 0 else p in
  let specular := vec4_scale (vec4_scale light_color (lit 5))
                             (gl_pow p (lit 100)) in
  vec4_add (vec4_mul color (vec4_add ambient diffuse)) specular.

(** The lighting computation in the words of the specification: GLSL's
    [max(x, y)] is [y] if [x < y] and [x] otherwise. *)
Definition gl_max (x y : F) : F := if fltb x y then y else x.

Definition view_axis : vec3 F := (lit 0, lit 0, lit 1).

Definition lighting_spec (normal light_dir : vec3 F)
    (light_color ambient : vec4 F) (colorValue : vec4 F) : vec4 F :=
  let n := gl_normalize normal in
  let l := gl_normalize light_dir in
  let diffuse :=
    set_alpha (vec4_scale light_color (gl_max (lit 0) (gl_dot l n))) (lit 1) in
  let specular :=
    vec4_scale (vec4_scale light_color (lit 5))
               (gl_pow (gl_max (lit 0) (gl_dot (gl_reflect l n) view_axis))
                       (lit 100)) in
  vec4_add (vec4_mul colorValue (vec4_add ambient diffuse)) specular.

End Lighting.

(** ** Reasoning about methods *)

(** [wp m Q s]: running [m] on [s] ends, returning or raising, in a result
    and an object that satisfy [Q]. *)
Definition wp {S A} (m : M S A) (Q : result A -> S -> Prop) (s : S) : Prop :=
  Q (fst (m s)) (snd (m s)).

(** The object a method leaves behind. *)
Definition after {S A} (m : M S A) (s : S) : S := snd (m s).

(** What [__init__] fixes for the lifetime of the object: the two
    varyings. *)
Definition constructed {F MD} (s : @Mesh F MD) : Prop :=
  _color_var s = Varying "v_color" "vec4" /\
  _normal_var s = Varying "v_normal" "vec3".

(** The [phong] object as [_update_data] has it when it calls it. *)
Definition bound_phong {F} {SF : Scalar F} : expr F :=
  Function phong_template
    (<["ambient" := Uniform4 (lit 0.3, lit 0.3, lit 0.3, lit 1)%Q]>
       (<["light_color" := Uniform4 (lit 1, lit 1, lit 1, lit 1)%Q]>
          (<["light_dir" := Uniform3 (lit 1, lit 1, lit 1)%Q]>
             (<["normal" := Varying "v_normal" "vec3"]> ∅)))).

(** The color source [_update_data] selects for a mesh: the uniform color
    when the mesh has no colors, the color buffer otherwise. *)
Definition color_source {F MD} {API : MeshDataAPI F MD} (md : MD)
    (uniform : vec4 F) (buffer : VertexBuffer (vec4 F)) : expr F :=
  if negb (has_vertex_color md) && negb (has_face_color md)
  then Uniform4 uniform
  else Attribute (vb_id buffer).

(** The accessors materialisation may call all return. *)
Definition accessors_return {F MD} {API : MeshDataAPI F MD} (md : MD)
  : Prop :=
  (forall ix, exists a, vertices md ix = Ok a)
  /\ (exists a, faces md = Ok a)
  /\ (forall ix, exists a, vertex_normals md ix = Ok a)
  /\ (forall ix, exists a, face_normals md ix = Ok a)
  /\ (has_vertex_color md = true ->
      forall ix, exists a, vertex_colors md ix = Ok a)
  /\ (has_face_color md = true ->
      forall ix, exists a, face_colors md ix = Ok a).

(** ** Test data: integer scalars, small meshes *)

(** Integers as scalars: a literal is rounded down, the normal of a triangle
    is the cross product of two of its edges (not normalised), vertex normals
    are sums. *)
#[export] Instance Z_Scalar : Scalar Z := {|
  lit q := (Qnum q / Zpos (Qden q))%Z;
  fadd := Z.add;
  fmul := Z.mul;
  fltb := Z.ltb;
  gl_pow a b := (a ^ b)%Z;
  gl_normalize v := v;
  gl_dot a b :=
    match a, b with
    | (x, y, z), (x', y', z') => (x * x' + y * y' + z * z')%Z
    end;
  gl_reflect i n := i
|}.

Definition cross_of_edges (a b c : vec3 Z) : vec3 Z :=
  match a, b, c with
  | (ax, ay, az), (bx, by_, bz), (cx, cy, cz) =>
      let '(ux, uy, uz) := (bx - ax, by_ - ay, bz - az)%Z in
      let '(vx, vy, vz) := (cx - ax, cy - ay, cz - az)%Z in
      (uy * vz - uz * vy, uz * vx - ux * vz, ux * vy - uy * vx)%Z
  end.

Definition sum_vec3 (l : list (vec3 Z)) : vec3 Z :=
  foldr (fun a b =>
           match a, b with
           | (x, y, z), (x', y', z') => (x + x', y + y', z + z')%Z
           end) (0, 0, 0)%Z l.

#[export] Instance Z_NormalKernels : NormalKernels Z := {|
  triangle_normal := cross_of_edges;
  blend_normals := sum_vec3
|}.

Definition red : vec4 Z := (1, 0, 0, 1)%Z.
Definition green : vec4 Z := (0, 1, 0, 1)%Z.
Definition blue : vec4 Z := (0, 0, 1, 1)%Z.
Definition grey : vec4 Z := (5, 5, 5, 1)%Z.

Definition triangle_points : list (vec3 Z) :=
  [(0, 0, 0); (1, 0, 0); (0, 1, 0)]%Z.

(** One triangle, no colors. *)
Definition plain_triangle : SpecMeshData (F := Z) :=
  mkSpecMeshData triangle_points [(0, 1, 2)] None None false.

(** One triangle with a color per vertex. *)
Definition vertex_colored_triangle : SpecMeshData (F := Z) :=
  mkSpecMeshData triangle_points [(0, 1, 2)] (Some [red; green; blue]) None
                 false.

(** One triangle with a color per vertex and a color for the face. *)
Definition two_colored_triangle : SpecMeshData (F := Z) :=
  mkSpecMeshData triangle_points [(0, 1, 2)] (Some [red; green; blue])
                 (Some [grey]) false.

(** A face that refers to a vertex that does not exist. *)
Definition broken_triangle : SpecMeshData (F := Z) :=
  mkSpecMeshData triangle_points [(0, 1, 5)] None None false.

(** The visual [Mesh(meshdata=md, shading=value)]. *)
Definition visual (md : SpecMeshData (F := Z)) (value : py_value)
  : @Mesh Z SpecMeshData :=
  after (shading_setter value ;;
         set_data None None None None (Some md) None)%method
        (blank default_color md).

Definition some_event : DrawEvent Z :=
  mkDrawEvent (Function "transform" ∅).

Definition TestMesh : Type := @Mesh Z (SpecMeshData (F := Z)).

(** A visual drawn ['flat'] once and then switched to shading [None]. *)
Definition lit_then_unlit : TestMesh :=
  after (shading_setter PyNone)
        (after (draw some_event) (visual plain_triangle (PyStr "flat"))).

(** One triangle with a color for the face only. *)
Definition face_colored_triangle : SpecMeshData (F := Z) :=
  mkSpecMeshData triangle_points [(0, 1, 2)] None (Some [grey]) false.

(** One triangle that carries face-indexed data. *)
Definition face_indexed_triangle : SpecMeshData (F := Z) :=
  mkSpecMeshData triangle_points [(0, 1, 2)] None None true.

(** A visual whose dirty flag is not set. *)
Definition clean_visual : TestMesh :=
  set_data_changed false (visual plain_triangle (PyStr "smooth")).

(** * Properties *)

(** ** Rules for [wp] *)

Lemma wp_run {S A} (m : M S A) (Q : result A -> S -> Prop) s r s' :
  wp m Q s -> m s = (r, s') -> Q r s'.
Proof. unfold wp. intros H E. rewrite E in H. exact H. Qed.

Lemma wp_bind {S A B} (m : M S A) (k : A -> M S B) Q s :
  wp m (fun r s' => match r with
                    | Ok a => wp (k a) Q s'
                    | Raise e => Q (Raise e) s'
                    end) s ->
  wp (bind m k) Q s.
Proof. unfold wp, bind. destruct (m s) as [[a|e] s']; simpl; auto. Qed.

Lemma wp_ret {S A} (a : A) (Q : result A -> S -> Prop) s :
  Q (Ok a) s -> wp (ret a) Q s.
Proof. auto. Qed.

Lemma wp_raise {S A} e (Q : result A -> S -> Prop) s :
  Q (Raise e) s -> wp (raise e) Q s.
Proof. auto. Qed.

Lemma wp_gets {S A} (f : S -> A) (Q : result A -> S -> Prop) s :
  Q (Ok (f s)) s -> wp (gets f) Q s.
Proof. auto. Qed.

Lemma wp_modify {S} (f : S -> S) (Q : result unit -> S -> Prop) s :
  Q (Ok tt) (f s) -> wp (modify f) Q s.
Proof. auto. Qed.

Lemma wp_call {S A} (r : result A) (Q : result A -> S -> Prop) s :
  Q r s -> wp (call r) Q s.
Proof. auto. Qed.

Lemma wp_alloc {F MD A} (data : list A)
    (Q : result (VertexBuffer A) -> @Mesh F MD -> Prop) s :
  Q (Ok (mkVertexBuffer (gl_next_id s) data))
    (set_next_id (S (gl_next_id s)) s) ->
  wp (gloo_VertexBuffer data) Q s.
Proof. auto. Qed.

(** Reduce the attributes of an object that was assigned to. *)
Ltac fields :=
  cbn [_program _vertices _normals _faces _colors _indexed _color _color_var
       _normal_var _shading _meshdata _data_changed gl_next_id gl_trace
       set_program set_vertices set_normals set_faces set_colors set_indexed
       set_color set_shading set_meshdata set_data_changed set_next_id
       set_trace vert frag vcode fcode vb_id vb_data ib_id ib_data
       VertexBuffer_set_data IndexBuffer_set_data attribute_of] in *.

(** One statement of a method, splitting where the code branches or a
    collaborator may raise. *)
Ltac wp_step :=
  lazymatch goal with
  | |- wp (bind _ _) _ _ => apply wp_bind
  | |- wp (ret _) _ _ => apply wp_ret
  | |- wp (raise _) _ _ => apply wp_raise
  | |- wp (gets _) _ _ => apply wp_gets
  | |- wp (modify _) _ _ => apply wp_modify
  | |- wp (gloo_VertexBuffer _) _ _ => apply wp_alloc
  | |- wp (call ?r) _ _ => apply wp_call; destruct r eqn:?
  | |- wp (when ?b _) _ _ => unfold when at 1; destruct b eqn:?
  | |- wp (if ?b then _ else _) _ _ => destruct b eqn:?
  | |- wp shading _ _ => unfold shading at 1
  | |- wp update _ _ => unfold update at 1
  | |- wp mesh_data_changed _ _ => unfold mesh_data_changed at 1
  | |- wp (vert_setitem _ _) _ _ => unfold vert_setitem at 1
  | |- wp (frag_setitem _ _) _ _ => unfold frag_setitem at 1
  | |- wp (assert _) _ _ => unfold assert at 1
  | |- wp (match ?o with Some _ => _ | None => _ end) _ _ => destruct o eqn:?
  end; cbv beta iota zeta; fields.

Ltac wp_steps := repeat wp_step.

Lemma wp_conseq {S A} (m : M S A) (Q Q' : result A -> S -> Prop) s :
  wp m Q s -> (forall r s', Q r s' -> Q' r s') -> wp m Q' s.
Proof. unfold wp. auto. Qed.

#[global] Opaque wp.

(** ** [py_in] and the allowed shading values *)

Lemma py_eq_true a b : py_eq a b = true <-> a = b.
Proof. unfold py_eq. apply bool_decide_eq_true. Qed.

Lemma py_eq_false a b : py_eq a b = false <-> a <> b.
Proof. unfold py_eq. apply bool_decide_eq_false. Qed.

Lemma py_in_spec value t : py_in value t = true <-> In value t.
Proof.
  induction t as [|x t IH]; simpl.
  - split; [discriminate | tauto].
  - rewrite orb_true_iff, py_eq_true, IH. split; intros [H|H]; auto.
Qed.

Section VisualFacts.

Context {F : Type} {SF : Scalar F} {MD : Type} {API : MeshDataAPI F MD}.

Implicit Types s : @Mesh F MD.

(** *** The [shading] property *)

(** C9. Assigning a value outside [None], ['flat'], ['smooth'] to [shading]
    raises at once and leaves the object, hence the stored mode, as it was;
    assigning one of the three succeeds and the getter then returns that
    value. *)
Theorem shading_setter_validates (value : py_value) s :
  (value <> PyNone -> value <> PyStr "flat" -> value <> PyStr "smooth" ->
   shading_setter value s = (Raise AssertionError, s))
  /\ (value = PyNone \/ value = PyStr "flat" \/ value = PyStr "smooth" ->
      exists s', shading_setter value s = (Ok tt, s')
                 /\ shading s' = (Ok value, s')).
Proof.
  unfold shading_setter, shading, bind, assert, modify, gets, ret, raise.
  split.
  - intros H1 H2 H3.
    assert (E : py_in value [PyNone; PyStr "flat"; PyStr "smooth"] = false).
    { apply not_true_is_false. rewrite py_in_spec. simpl. intuition congruence. }
    rewrite E. reflexivity.
  - intros H.
    assert (E : py_in value [PyNone; PyStr "flat"; PyStr "smooth"] = true).
    { apply py_in_spec. simpl. intuition congruence. }
    rewrite E. eexists. split; reflexivity.
Qed.

(** *** [set_data] *)

(** C10. Without [meshdata], [set_data] stores a new mesh built from the
    arrays of that very call, whatever was stored before; a call with only a
    color stores the mesh built from no arrays; with [meshdata], that mesh
    is stored and the arrays are ignored. *)
Theorem set_data_replaces_mesh (vs : option (list (vec3 F)))
    (fs : option (list face)) (vc fc : option (list (vec4 F)))
    (color : option (vec4 F)) s :
  (exists s', set_data vs fs vc fc None color s = (Ok tt, s')
              /\ _meshdata s' = MeshData vs fs vc fc)
  /\ (forall c, exists s',
        set_data None None None None None (Some c) s = (Ok tt, s')
        /\ _meshdata s' = MeshData None None None None
        /\ _color s' = c)
  /\ (forall md, exists s',
        set_data vs fs vc fc (Some md) color s = (Ok tt, s')
        /\ _meshdata s' = md).
Proof.
  unfold set_data, mesh_data_changed, update, bind, modify, ret.
  repeat split; intros; destruct color; eexists; (split; [reflexivity|]);
    fields; auto.
Qed.

(** *** What materialisation never touches *)

Lemma update_data_frame s :
  wp _update_data
     (fun _ s' =>
        _data_changed s' = _data_changed s /\ _meshdata s' = _meshdata s
        /\ _shading s' = _shading s /\ _color s' = _color s
        /\ _color_var s' = _color_var s /\ _normal_var s' = _normal_var s
        /\ gl_trace s' = gl_trace s
        /\ vb_id (_normals s') = vb_id (_normals s)
        /\ vb_id (_colors s') = vb_id (_colors s)
        /\ ib_id (_faces s') = ib_id (_faces s)
        /\ gl_next_id s <= gl_next_id s') s.
Proof.
  unfold _update_data. wp_steps; repeat split; auto with lia.
Qed.

(** C8, as the code has it. When materialisation raises, the dirty flag is
    as before (so it stays set and the next draw retries), and so are the
    program's bindings, the mesh, the shading mode and the uniform color.
    Buffers and the representation flag written before the failing step are
    not restored. *)
Theorem failed_update_keeps_flag_and_program s s' (e : exn) :
  _update_data s = (Raise e, s') ->
  _data_changed s' = _data_changed s /\ _program s' = _program s
  /\ _meshdata s' = _meshdata s /\ _shading s' = _shading s
  /\ _color s' = _color s.
Proof.
  intros H.
  refine (wp_run _ (fun r s'' => r = Raise e ->
              _data_changed s'' = _data_changed s
              /\ _program s'' = _program s /\ _meshdata s'' = _meshdata s
              /\ _shading s'' = _shading s /\ _color s'' = _color s)
            s (Raise e) s' _ H eq_refl).
  unfold _update_data. wp_steps; intros; try discriminate; auto.
Qed.

(** *** The dirty flag *)

Lemma draw_frame (event : DrawEvent F) s :
  wp (draw event)
     (fun _ s' => _data_changed s' = _data_changed s
                  /\ _meshdata s' = _meshdata s /\ _shading s' = _shading s
                  /\ _color s' = _color s) s.
Proof.
  unfold draw. do 6 wp_step.
  - (* the flag is set: materialise *)
    eapply wp_conseq; [apply update_data_frame|].
    intros [[]|e] s' (H1 & H2 & H3 & H4 & _); fields;
      [|intuition congruence].
    wp_steps; intuition congruence.
  - wp_steps; intuition congruence.
Qed.

Lemma set_data_sets_flag vs fs vc fc md color s :
  _data_changed (after (set_data vs fs vc fc md color) s) = true.
Proof.
  unfold after, set_data, mesh_data_changed, update, bind, modify, ret.
  destruct md, color; reflexivity.
Qed.

(** C2, as the code has it. [draw] consults the dirty flag but nothing ever
    clears it: after [set_data] it is set, and it is still set after one
    draw and after two, so each of the two draws materialises. *)
Theorem draw_leaves_data_changed_set (vs : option (list (vec3 F)))
    (fs : option (list face)) (vc fc : option (list (vec4 F)))
    (md : option MD) (color : option (vec4 F)) (ev1 ev2 : DrawEvent F) s :
  let s1 := after (set_data vs fs vc fc md color) s in
  let s2 := after (draw ev1) s1 in
  let s3 := after (draw ev2) s2 in
  _data_changed s1 = true /\ _data_changed s2 = true
  /\ _data_changed s3 = true.
Proof.
  intros s1 s2 s3.
  assert (H1 : _data_changed s1 = true) by apply set_data_sets_flag.
  assert (H2 : _data_changed s2 = true).
  { destruct (draw_frame ev1 s1) as [E _]. unfold s2, after. congruence. }
  assert (H3 : _data_changed s3 = true).
  { destruct (draw_frame ev2 s2) as [E _]. unfold s3, after. congruence. }
  auto.
Qed.

(** *** The composed program *)

(** What a successful materialisation leaves in the program. *)
Lemma update_data_program s :
  constructed s ->
  wp _update_data
     (fun r s' =>
        r = Ok tt ->
        vert (_program s') !! "position"
          = Some (Call vec3to4 [Attribute (vb_id (_vertices s'))])
        /\ vert (_program s') !! "v_color"
            = Some (color_source (_meshdata s) (_color s) (_colors s'))
        /\ (_shading s = PyNone ->
            frag (_program s') !! "color" = Some (Varying "v_color" "vec4")
            /\ _normals s' = _normals s)
        /\ (_shading s <> PyNone ->
            frag (_program s') !! "color"
              = Some (Call bound_phong [Varying "v_color" "vec4"])
            /\ vert (_program s') !! "v_normal"
                = Some (Attribute (vb_id (_normals s'))))) s.
Proof.
  intros [Hc Hn]. unfold _update_data, color_source.
  wp_steps; intros; try discriminate;
    rewrite ?Hc, ?Hn; cbn [varying_key];
    repeat match goal with
    | H : py_eq _ _ = true |- _ => apply py_eq_true in H
    | H : py_eq _ _ = false |- _ => apply py_eq_false in H
    | H : _ && _ = true |- _ => apply andb_true_iff in H; destruct H
    end;
    (split; [|split; [|split]]);
    try (intros; congruence);
    try (intros; split);
    rewrite ?lookup_insert_eq;
    repeat (rewrite lookup_insert_ne by done; rewrite ?lookup_insert_eq);
    try reflexivity; try congruence.
Qed.

(** *** The buffers *)

(** What a successful materialisation leaves in the buffers, path by
    path. *)
Lemma update_data_buffers s :
  wp _update_data
     (fun r s' =>
        r = Ok tt ->
        let md := _meshdata s in
        if py_eq (_shading s) (PyStr "smooth")
           && negb (has_face_indexed_data md)
        then
          _indexed s' = Some true
          /\ vb_id (_vertices s') = vb_id (_vertices s)
          /\ vertices md indexed_None = Ok (vb_data (_vertices s'))
          /\ vertex_normals md indexed_None = Ok (vb_data (_normals s'))
          /\ faces md = Ok (ib_data (_faces s'))
          /\ (if has_face_color md
              then face_colors md indexed_None = Ok (vb_data (_colors s'))
              else if has_vertex_color md
              then vertex_colors md indexed_None = Ok (vb_data (_colors s'))
              else _colors s' = _colors s)
        else
          _indexed s' = Some false
          /\ vb_id (_vertices s') = gl_next_id s
          /\ vertices md indexed_faces = Ok (vb_data (_vertices s'))
          /\ _faces s' = _faces s
          /\ (if py_eq (_shading s) (PyStr "smooth")
              then vertex_normals md indexed_faces
                   = Ok (vb_data (_normals s'))
              else if py_eq (_shading s) (PyStr "flat")
              then face_normals md indexed_faces = Ok (vb_data (_normals s'))
              else _normals s' = _normals s)
          /\ (if has_vertex_color md
              then vertex_colors md indexed_faces = Ok (vb_data (_colors s'))
              else if has_face_color md
              then face_colors md indexed_faces = Ok (vb_data (_colors s'))
              else _colors s' = _colors s)) s.
Proof.
  unfold _update_data.
  wp_steps; intros; try discriminate; cbv zeta; repeat split; auto.
Qed.

Lemma update_data_returns s :
  accessors_return (_meshdata s) ->
  wp _update_data (fun r _ => r = Ok tt) s.
Proof.
  intros (Hv & Hf & Hvn & Hfn & Hvc & Hfc). unfold _update_data.
  wp_steps; try reflexivity; exfalso;
    try specialize (Hvc eq_refl); try specialize (Hfc eq_refl);
    match goal with
    | H : vertices _ ?ix = Raise _ |- _ =>
        destruct (Hv ix) as [? ?]; congruence
    | H : _ = Raise _, H' : exists a, _ = Ok a |- _ =>
        destruct H' as [? ?]; congruence
    | H : vertex_normals _ ?ix = Raise _ |- _ =>
        destruct (Hvn ix) as [? ?]; congruence
    | H : face_normals _ ?ix = Raise _ |- _ =>
        destruct (Hfn ix) as [? ?]; congruence
    | H : vertex_colors _ ?ix = Raise _ |- _ =>
        destruct (Hvc ix) as [? ?]; congruence
    | H : face_colors _ ?ix = Raise _ |- _ =>
        destruct (Hfc ix) as [? ?]; congruence
    end.
Qed.

End VisualFacts.

Section VisualClaims.

Context {F : Type} {SF : Scalar F} {MD : Type} {API : MeshDataAPI F MD}.

Implicit Types s : @Mesh F MD.

(** C1, as the code has it. On the indexed path (shading ['smooth'], no
    face-indexed data) a mesh with both per-vertex and per-face colors gets
    its per-face colors into the color buffer: the second, unconditional
    assignment overwrites the per-vertex colors. *)
Theorem indexed_path_emits_face_colors s s' :
  _shading s = PyStr "smooth" ->
  has_face_indexed_data (_meshdata s) = false ->
  has_vertex_color (_meshdata s) = true ->
  has_face_color (_meshdata s) = true ->
  _update_data s = (Ok tt, s') ->
  _indexed s' = Some true
  /\ face_colors (_meshdata s) indexed_None = Ok (vb_data (_colors s')).
Proof.
  intros Hsh Hfi Hvc Hfc H.
  pose proof (wp_run _ _ _ _ _ (update_data_buffers s) H eq_refl) as B.
  cbv zeta in B. rewrite Hsh, Hfi, Hfc in B.
  change (py_eq (PyStr "smooth") (PyStr "smooth")) with true in B.
  cbn [andb negb] in B. tauto.
Qed.

(** On the expanded path the per-vertex colors do take precedence. *)
Lemma expanded_path_emits_vertex_colors s s' :
  py_eq (_shading s) (PyStr "smooth")
    && negb (has_face_indexed_data (_meshdata s)) = false ->
  has_vertex_color (_meshdata s) = true ->
  _update_data s = (Ok tt, s') ->
  _indexed s' = Some false
  /\ vertex_colors (_meshdata s) indexed_faces = Ok (vb_data (_colors s')).
Proof.
  intros Hp Hvc H.
  pose proof (wp_run _ _ _ _ _ (update_data_buffers s) H eq_refl) as B.
  cbv zeta in B. rewrite Hp, Hvc in B. tauto.
Qed.

(** C5, as the code has it. With shading [None], a successful
    materialisation does not write the normal buffer: it is what it was
    before (empty on a new visual, the normals of an earlier lit
    materialisation otherwise).  The fragment color is the color varying,
    and the color varying is bound to the color source unchanged: the
    uniform color when the mesh has no colors, the color buffer
    otherwise. *)
Theorem unlit_passes_color_through s s' :
  constructed s ->
  _shading s = PyNone ->
  _update_data s = (Ok tt, s') ->
  _normals s' = _normals s
  /\ (vb_data (_normals s) = [] -> vb_data (_normals s') = [])
  /\ frag (_program s') !! "color" = Some (Varying "v_color" "vec4")
  /\ vert (_program s') !! "v_color"
     = Some (color_source (_meshdata s) (_color s) (_colors s')).
Proof.
  intros Hc Hsh H.
  destruct (wp_run _ _ _ _ _ (update_data_program s Hc) H eq_refl)
    as (_ & Hcol & Hnone & _).
  destruct (Hnone Hsh) as [Hfrag Hn].
  rewrite Hn. auto.
Qed.

(** C6. After a successful materialisation the color varying is bound to
    the uniform color exactly when the mesh has neither per-vertex nor
    per-face colors, and to the color buffer exactly when it has some: one
    binding, of one of the two kinds. *)
Theorem color_bound_to_uniform_iff_no_colors s s' :
  constructed s ->
  _update_data s = (Ok tt, s') ->
  let md := _meshdata s in
  let bound := vert (_program s') !! "v_color" in
  (bound = Some (Uniform4 (_color s))
   <-> has_vertex_color md = false /\ has_face_color md = false)
  /\ (bound = Some (Attribute (vb_id (_colors s')))
      <-> ~ (has_vertex_color md = false /\ has_face_color md = false))
  /\ (bound = Some (Uniform4 (_color s))
      \/ bound = Some (Attribute (vb_id (_colors s')))).
Proof.
  intros Hc H md bound.
  destruct (wp_run _ _ _ _ _ (update_data_program s Hc) H eq_refl)
    as (_ & Hcol & _).
  unfold bound, md. rewrite Hcol. unfold color_source.
  destruct (has_vertex_color (_meshdata s)), (has_face_color (_meshdata s));
    cbn [negb andb]; repeat split; intros; auto;
    try discriminate; try tauto; intuition discriminate.
Qed.

End VisualClaims.

Section LightingClaims.

Context {F : Type} {SF : Scalar F} {MD : Type} {API : MeshDataAPI F MD}.

Implicit Types s : @Mesh F MD.

(** On scalars that [<] orders totally, clamping at zero is [max(0, .)]. *)
Lemma clamp_is_max (x : F) :
  (forall x : F, fltb x (lit 0) = true -> fltb (lit 0) x = false) ->
  (forall x : F, fltb x (lit 0) = false -> fltb (lit 0) x = false ->
                 x = lit 0) ->
  (if fltb x (lit 0) then lit 0 else x) = gl_max (lit 0) x.
Proof.
  intros Hasym Htri. unfold gl_max.
  destruct (fltb x (lit 0)) eqn:E1.
  - rewrite (Hasym x E1). reflexivity.
  - destruct (fltb (lit 0) x) eqn:E2; [reflexivity|].
    apply Htri; assumption.
Qed.

(** C7. With shading ['flat'] or ['smooth'] a successful materialisation
    binds the fragment color to the lighting function applied to the color
    varying, with its normal bound to the normal varying (fed from the
    normal buffer), light direction (1,1,1), light color (1,1,1,1) and
    ambient (0.3,0.3,0.3,1.0).  On scalars totally ordered by [<], that
    function computes: normal and light direction normalised; diffuse =
    light color times max(0, dot(light, normal)), alpha set to 1; specular =
    light color times 5 times max(0, dot(reflect(light, normal), (0,0,1)))
    to the power 100; result = color times (ambient + diffuse) plus
    specular. *)
Theorem lit_shading_binds_phong s s' :
  (forall x : F, fltb x (lit 0) = true -> fltb (lit 0) x = false) ->
  (forall x : F, fltb x (lit 0) = false -> fltb (lit 0) x = false ->
                 x = lit 0) ->
  constructed s ->
  _shading s = PyStr "flat" \/ _shading s = PyStr "smooth" ->
  _update_data s = (Ok tt, s') ->
  (exists binds,
      frag (_program s') !! "color"
        = Some (Call (Function phong_template binds)
                     [Varying "v_color" "vec4"])
      /\ binds !! "normal" = Some (Varying "v_normal" "vec3")
      /\ binds !! "light_dir" = Some (Uniform3 (lit 1, lit 1, lit 1)%Q)
      /\ binds !! "light_color"
         = Some (Uniform4 (lit 1, lit 1, lit 1, lit 1)%Q)
      /\ binds !! "ambient"
         = Some (Uniform4 (lit 0.3, lit 0.3, lit 0.3, lit 1)%Q))
  /\ vert (_program s') !! "v_normal"
     = Some (Attribute (vb_id (_normals s')))
  /\ vert (_program s') !! "v_color"
     = Some (color_source (_meshdata s) (_color s) (_colors s'))
  /\ forall (normal light_dir : vec3 F) (light_color ambient color : vec4 F),
       phong_shading normal light_dir light_color ambient color
       = lighting_spec normal light_dir light_color ambient color.
Proof.
  intros Hasym Htri Hc Hsh H.
  destruct (wp_run _ _ _ _ _ (update_data_program s Hc) H eq_refl)
    as (_ & Hcol & _ & Hlit).
  assert (Hne : _shading s <> PyNone) by (destruct Hsh; congruence).
  destruct (Hlit Hne) as [Hfrag Hvn].
  split; [|split; [exact Hvn|split; [exact Hcol|]]].
  - eexists. split; [exact Hfrag|].
    repeat split;
      repeat (rewrite lookup_insert_ne by done); apply lookup_insert_eq.
  - intros. unfold phong_shading, lighting_spec, view_axis.
    cbv zeta. rewrite !(clamp_is_max _ Hasym Htri). reflexivity.
Qed.

End LightingClaims.

(** ** The mesh container *)

Section ContainerFacts.

Context {F : Type} {SF : Scalar F} {NK : NormalKernels F}.

Implicit Types md : SpecMeshData (F := F).

Lemma corners_in_range {A} (l : list A) (f : face) :
  face_in_range (length l) f = true ->
  exists x y z, corners l f = Ok (x, y, z).
Proof.
  destruct f as [[a b] c]. unfold face_in_range, corners.
  rewrite !andb_true_iff, !bool_decide_eq_true. intros [[Ha Hb] Hc].
  destruct (lookup_lt_is_Some_2 l a Ha) as [x ->].
  destruct (lookup_lt_is_Some_2 l b Hb) as [y ->].
  destruct (lookup_lt_is_Some_2 l c Hc) as [z ->].
  eauto.
Qed.

Lemma by_faces_in_range {A} (l : list A) (fs : list face) :
  forallb (face_in_range (length l)) fs = true ->
  exists r, by_faces l fs = Ok r /\ length r = 3 * length fs.
Proof.
  induction fs as [|f fs IH]; simpl.
  - exists []. auto.
  - rewrite andb_true_iff. intros [Hf Hfs].
    destruct (corners_in_range l f Hf) as (x & y & z & ->).
    destruct (IH Hfs) as (r & -> & Hr).
    exists (x :: y :: z :: r). split; [reflexivity|]. simpl. lia.
Qed.

Lemma by_faces_length {A} (l : list A) (fs : list face) r :
  by_faces l fs = Ok r -> length r = 3 * length fs.
Proof.
  revert r. induction fs as [|f fs IH]; simpl; intros r H.
  - injection H as <-. reflexivity.
  - destruct (corners l f) as [[[x y] z]|]; [|discriminate].
    destruct (by_faces l fs) as [r'|]; [|discriminate].
    injection H as <-. simpl. rewrite (IH r' eq_refl). lia.
Qed.

Lemma per_face_normals_in_range (vs : list (vec3 F)) (fs : list face) :
  forallb (face_in_range (length vs)) fs = true ->
  exists r, per_face_normals vs fs = Ok r /\ length r = length fs.
Proof.
  induction fs as [|f fs IH]; simpl.
  - exists []. auto.
  - rewrite andb_true_iff. intros [Hf Hfs].
    destruct (corners_in_range vs f Hf) as (x & y & z & ->).
    destruct (IH Hfs) as (r & -> & Hr).
    eexists. split; [reflexivity|]. simpl. lia.
Qed.

Lemma per_vertex_normals_in_range (vs : list (vec3 F)) (fs : list face) :
  forallb (face_in_range (length vs)) fs = true ->
  exists r, per_vertex_normals vs fs = Ok r /\ length r = length vs.
Proof.
  intros H. unfold per_vertex_normals.
  destruct (per_face_normals_in_range vs fs H) as (fns & -> & _).
  eexists. split; [reflexivity|]. apply length_imap.
Qed.

Lemma per_corner_length {A} (l : list A) :
  length (per_corner l) = 3 * length l.
Proof.
  unfold per_corner. induction l as [|x l IH]; simpl; [reflexivity|].
  rewrite IH. lia.
Qed.

(** Corner [k] of face [j] holds the entry of face [j]. *)
Lemma per_corner_lookup {A} (l : list A) (j k : nat) :
  k < 3 -> per_corner l !! (3 * j + k) = l !! j.
Proof.
  unfold per_corner. revert j. induction l as [|x l IH]; intros j Hk.
  - reflexivity.
  - destruct j as [|j].
    + destruct k as [|[|[|k]]]; simpl; try reflexivity; lia.
    + replace (3 * S j + k) with (S (S (S (3 * j + k)))) by lia.
      simpl. apply IH. exact Hk.
Qed.

(** A mesh that satisfies the invariant of the data model can be retrieved
    in every form. *)
Lemma mesh_ok_accessors_return md :
  mesh_ok md = true -> accessors_return md.
Proof.
  unfold mesh_ok. rewrite !andb_true_iff. intros [[Hr Hvc] Hfc].
  unfold accessors_return. cbn.
  destruct (per_face_normals_in_range _ _ Hr) as (fns & Efn & Hfn).
  destruct (per_vertex_normals_in_range _ _ Hr) as (vns & Evn & Hvn).
  destruct (by_faces_in_range _ _ Hr) as (vf & Evf & _).
  repeat split.
  - intros []; cbn; eauto.
  - unfold spec_faces. eauto.
  - intros []; unfold spec_vertex_normals; rewrite Evn; [eauto|].
    rewrite <- Hvn in Hr.
    destruct (by_faces_in_range _ _ Hr) as (r & -> & _). eauto.
  - intros []; unfold spec_face_normals; rewrite Efn; eauto.
  - intros Hhas ix. unfold spec_vertex_colors.
    destruct (md_vertex_colors md) as [cs|]; [|discriminate].
    rewrite Hvc. apply bool_decide_eq_true in Hvc.
    destruct ix; [eauto|].
    rewrite <- Hvc in Hr.
    destruct (by_faces_in_range _ _ Hr) as (r & -> & _). eauto.
  - intros Hhas ix. unfold spec_face_colors.
    destruct (md_face_colors md) as [cs|]; [|discriminate].
    rewrite Hfc. destruct ix; eauto.
Qed.

Implicit Types s : @Mesh F (SpecMeshData (F := F)).

(** A mesh that satisfies the invariant always materialises. *)
Lemma mesh_ok_materialises s :
  mesh_ok (_meshdata s) = true ->
  exists s', _update_data s = (Ok tt, s').
Proof.
  intros Hok.
  pose proof (update_data_returns s (mesh_ok_accessors_return _ Hok)) as H.
  exists (snd (_update_data s)).
  destruct (_update_data s) as [r s'] eqn:E.
  apply (wp_run _ _ _ _ _ H) in E. cbn. congruence.
Qed.

(** C3. A mesh without face-only data, drawn ['smooth'], is materialised
    indexed: the vertex buffer gets the mesh's vertices as they are, the
    normal buffer one normal per vertex, the index buffer the faces; and
    when the mesh has per-vertex colors only, the color buffer gets them,
    one per vertex. *)
Theorem smooth_shared_mesh_is_indexed s :
  _shading s = PyStr "smooth" ->
  has_face_indexed_data (_meshdata s) = false ->
  mesh_ok (_meshdata s) = true ->
  exists s' ns,
    _update_data s = (Ok tt, s')
    /\ _indexed s' = Some true
    /\ _vertices s'
       = mkVertexBuffer (vb_id (_vertices s)) (md_vertices (_meshdata s))
    /\ per_vertex_normals (md_vertices (_meshdata s)) (md_faces (_meshdata s))
       = Ok ns
    /\ vb_data (_normals s') = ns
    /\ length ns = length (md_vertices (_meshdata s))
    /\ ib_data (_faces s') = md_faces (_meshdata s)
    /\ (forall cs,
          md_vertex_colors (_meshdata s) = Some cs ->
          md_face_colors (_meshdata s) = None ->
          vb_data (_colors s') = cs
          /\ length (vb_data (_colors s'))
             = length (md_vertices (_meshdata s))).
Proof.
  intros Hsh Hfi Hok.
  destruct (mesh_ok_materialises s Hok) as [s' H].
  pose proof (wp_run _ _ _ _ _ (update_data_buffers s) H eq_refl) as B.
  cbv zeta in B. rewrite Hsh, Hfi in B.
  change (py_eq (PyStr "smooth") (PyStr "smooth")) with true in B.
  cbn [andb negb] in B.
  destruct B as (Hix & Hid & Hv & Hn & Hf & Hcol).
  cbn in Hv, Hn, Hf. unfold spec_faces in Hf.
  injection Hv as Hv. injection Hf as Hf.
  unfold spec_vertex_normals in Hn.
  assert (Hr : forallb (face_in_range (length (md_vertices (_meshdata s))))
                       (md_faces (_meshdata s)) = true).
  { unfold mesh_ok in Hok. rewrite !andb_true_iff in Hok. tauto. }
  destruct (per_vertex_normals_in_range _ _ Hr) as (ns & Ens & Hlen).
  rewrite Ens in Hn. injection Hn as Hn.
  exists s', ns.
  split; [exact H|]. split; [exact Hix|].
  split; [destruct (_vertices s') as [i d]; cbn in *; congruence|].
  split; [exact Ens|]. split; [auto|]. split; [exact Hlen|].
  split; [auto|].
  intros cs Hvc Hfc. cbn in Hcol. rewrite Hvc, Hfc in Hcol. cbn in Hcol.
  unfold spec_vertex_colors in Hcol. rewrite Hvc in Hcol.
  destruct (bool_decide _) eqn:E; [|discriminate].
  apply bool_decide_eq_true in E. injection Hcol as Hcol.
  split; congruence.
Qed.

(** C4. A mesh drawn ['flat'] is materialised expanded: the index buffer is
    not written and the draw call will not use it; the normal buffer holds
    3 entries per face, and each of the 3 corners of a face holds the normal
    of that face. *)
Theorem flat_mesh_is_expanded s :
  _shading s = PyStr "flat" ->
  mesh_ok (_meshdata s) = true ->
  exists s' fns,
    _update_data s = (Ok tt, s')
    /\ _indexed s' = Some false
    /\ truthy (_indexed s') = false
    /\ _faces s' = _faces s
    /\ per_face_normals (md_vertices (_meshdata s)) (md_faces (_meshdata s))
       = Ok fns
    /\ length fns = length (md_faces (_meshdata s))
    /\ length (vb_data (_normals s')) = 3 * length (md_faces (_meshdata s))
    /\ (forall j k, k < 3 -> vb_data (_normals s') !! (3 * j + k) = fns !! j)
    /\ length (vb_data (_vertices s')) = 3 * length (md_faces (_meshdata s)).
Proof.
  intros Hsh Hok.
  destruct (mesh_ok_materialises s Hok) as [s' H].
  pose proof (wp_run _ _ _ _ _ (update_data_buffers s) H eq_refl) as B.
  cbv zeta in B. rewrite Hsh in B.
  change (py_eq (PyStr "flat") (PyStr "smooth")) with false in B.
  change (py_eq (PyStr "flat") (PyStr "flat")) with true in B.
  cbn [andb negb] in B.
  destruct B as (Hix & Hid & Hv & Hf & Hn & _).
  assert (Hr : forallb (face_in_range (length (md_vertices (_meshdata s))))
                       (md_faces (_meshdata s)) = true).
  { unfold mesh_ok in Hok. rewrite !andb_true_iff in Hok. tauto. }
  destruct (per_face_normals_in_range _ _ Hr) as (fns & Efn & Hlen).
  cbn in Hn, Hv. unfold spec_face_normals in Hn. rewrite Efn in Hn.
  injection Hn as Hn.
  exists s', fns. rewrite Hix, <- Hn.
  repeat split; auto.
  - rewrite per_corner_length. lia.
  - intros j k Hk. apply per_corner_lookup. exact Hk.
  - apply (by_faces_length _ _ _ Hv).
Qed.

End ContainerFacts.

(** ** The statements above on the test data *)

(** [visual md value] is what the constructor returns. *)
Lemma visual_is_constructed (md : SpecMeshData (F := Z)) (value : py_value) :
  py_in value [PyNone; PyStr "flat"; PyStr "smooth"] = true ->
  __init__ None None None None default_color (Some md) value
  = Ok (visual md value)
  /\ constructed (visual md value).
Proof.
  intros H. unfold __init__, visual, after, shading_setter, assert, bind.
  rewrite H. split; [reflexivity | split; reflexivity].
Qed.

Lemma indexed_path_emits_face_colors_witness :
  let s : TestMesh := visual two_colored_triangle (PyStr "smooth") in
  _indexed (after _update_data s) = Some true
  /\ face_colors (_meshdata s) indexed_None
     = Ok (vb_data (_colors (after _update_data s))).
Proof.
  intros s.
  apply (indexed_path_emits_face_colors s (after _update_data s));
    vm_compute; reflexivity.
Defined.

(** C1 at a triangle with three vertex colors and one face color, drawn
    ['smooth']: the color buffer holds the single face color, not the three
    vertex colors. *)
Lemma two_colors_smooth_emits_face_color :
  let s : TestMesh := visual two_colored_triangle (PyStr "smooth") in
  fst (_update_data s) = Ok tt
  /\ md_vertex_colors (_meshdata s) = Some [red; green; blue]
  /\ vb_data (_colors (after _update_data s)) = [grey]
  /\ vb_data (_colors (after _update_data s)) <> [red; green; blue].
Proof. vm_compute. repeat split; discriminate. Qed.

(** C2 at a triangle drawn ['flat']: the second of two draws, with no
    [set_data] in between, materialises again; it even draws from a new
    position buffer. *)
Lemma second_draw_materialises_again :
  let s0 : TestMesh := visual plain_triangle (PyStr "flat") in
  let s1 := after (draw some_event) s0 in
  let s2 := after (draw some_event) s1 in
  fst (draw some_event s0) = Ok tt /\ fst (draw some_event s1) = Ok tt
  /\ _data_changed s1 = true /\ _data_changed s2 = true
  /\ vb_id (_vertices s1) = 4 /\ vb_id (_vertices s2) = 5.
Proof. vm_compute. repeat split. Qed.

Lemma smooth_shared_mesh_is_indexed_witness :
  let s : TestMesh := visual vertex_colored_triangle (PyStr "smooth") in
  exists s' ns,
    _update_data s = (Ok tt, s')
    /\ _indexed s' = Some true
    /\ _vertices s'
       = mkVertexBuffer (vb_id (_vertices s)) (md_vertices (_meshdata s))
    /\ per_vertex_normals (md_vertices (_meshdata s)) (md_faces (_meshdata s))
       = Ok ns
    /\ vb_data (_normals s') = ns
    /\ length ns = length (md_vertices (_meshdata s))
    /\ ib_data (_faces s') = md_faces (_meshdata s)
    /\ (forall cs,
          md_vertex_colors (_meshdata s) = Some cs ->
          md_face_colors (_meshdata s) = None ->
          vb_data (_colors s') = cs
          /\ length (vb_data (_colors s'))
             = length (md_vertices (_meshdata s))).
Proof.
  intros s. apply (smooth_shared_mesh_is_indexed s); vm_compute; reflexivity.
Defined.

Lemma flat_mesh_is_expanded_witness :
  let s : TestMesh := visual plain_triangle (PyStr "flat") in
  exists s' fns,
    _update_data s = (Ok tt, s')
    /\ _indexed s' = Some false
    /\ truthy (_indexed s') = false
    /\ _faces s' = _faces s
    /\ per_face_normals (md_vertices (_meshdata s)) (md_faces (_meshdata s))
       = Ok fns
    /\ length fns = length (md_faces (_meshdata s))
    /\ length (vb_data (_normals s')) = 3 * length (md_faces (_meshdata s))
    /\ (forall j k, k < 3 -> vb_data (_normals s') !! (3 * j + k) = fns !! j)
    /\ length (vb_data (_vertices s')) = 3 * length (md_faces (_meshdata s)).
Proof.
  intros s. apply (flat_mesh_is_expanded s); vm_compute; reflexivity.
Defined.

(** C5 fails there: materialising with shading [None] succeeds and the
    normal buffer still holds the three normals of the flat pass. *)
Lemma unlit_after_lit_keeps_normals :
  _shading lit_then_unlit = PyNone
  /\ fst (_update_data lit_then_unlit) = Ok tt
  /\ vb_data (_normals (after _update_data lit_then_unlit))
     = [(0, 0, 1); (0, 0, 1); (0, 0, 1)]%Z
  /\ vb_data (_normals (after _update_data lit_then_unlit)) <> [].
Proof. vm_compute. repeat split; discriminate. Qed.

Lemma unlit_passes_color_through_witness :
  let s := lit_then_unlit in
  let s' := after _update_data s in
  _normals s' = _normals s
  /\ (vb_data (_normals s) = [] -> vb_data (_normals s') = [])
  /\ frag (_program s') !! "color" = Some (Varying "v_color" "vec4")
  /\ vert (_program s') !! "v_color"
     = Some (color_source (_meshdata s) (_color s) (_colors s')).
Proof.
  intros s s'. apply (unlit_passes_color_through s s').
  - split; reflexivity.
  - reflexivity.
  - vm_compute. reflexivity.
Defined.

Lemma color_bound_to_uniform_iff_no_colors_witness :
  let s : TestMesh := visual plain_triangle PyNone in
  let s' := after _update_data s in
  let md := _meshdata s in
  let bound := vert (_program s') !! "v_color" in
  (bound = Some (Uniform4 (_color s))
   <-> has_vertex_color md = false /\ has_face_color md = false)
  /\ (bound = Some (Attribute (vb_id (_colors s')))
      <-> ~ (has_vertex_color md = false /\ has_face_color md = false))
  /\ (bound = Some (Uniform4 (_color s))
      \/ bound = Some (Attribute (vb_id (_colors s')))).
Proof.
  intros s s'. apply (color_bound_to_uniform_iff_no_colors s s').
  - split; reflexivity.
  - vm_compute. reflexivity.
Defined.

Lemma Z_lt_zero_asym (x : Z) :
  fltb x (lit 0) = true -> fltb (lit 0) x = false.
Proof. cbn. intros H. apply Z.ltb_lt in H. apply Z.ltb_ge. lia. Defined.

Lemma Z_lt_zero_total (x : Z) :
  fltb x (lit 0) = false -> fltb (lit 0) x = false -> x = lit 0.
Proof.
  cbn. intros H1 H2. apply Z.ltb_ge in H1. apply Z.ltb_ge in H2.
  change (0 / 1)%Z with 0%Z in *. lia.
Defined.

Lemma lit_shading_binds_phong_witness :
  let s : TestMesh := visual plain_triangle (PyStr "smooth") in
  let s' := after _update_data s in
  (exists binds,
      frag (_program s') !! "color"
        = Some (Call (Function phong_template binds)
                     [Varying "v_color" "vec4"])
      /\ binds !! "normal" = Some (Varying "v_normal" "vec3")
      /\ binds !! "light_dir" = Some (Uniform3 (lit 1, lit 1, lit 1)%Q)
      /\ binds !! "light_color"
         = Some (Uniform4 (lit 1, lit 1, lit 1, lit 1)%Q)
      /\ binds !! "ambient"
         = Some (Uniform4 (lit 0.3, lit 0.3, lit 0.3, lit 1)%Q))
  /\ vert (_program s') !! "v_normal"
     = Some (Attribute (vb_id (_normals s')))
  /\ vert (_program s') !! "v_color"
     = Some (color_source (_meshdata s) (_color s) (_colors s'))
  /\ forall (normal light_dir : vec3 Z) (light_color ambient color : vec4 Z),
       phong_shading normal light_dir light_color ambient color
       = lighting_spec normal light_dir light_color ambient color.
Proof.
  intros s s'.
  apply (lit_shading_binds_phong s s' Z_lt_zero_asym Z_lt_zero_total).
  - split; reflexivity.
  - right. reflexivity.
  - vm_compute. reflexivity.
Defined.

(** C8 fails at a mesh whose face refers to a missing vertex, drawn
    ['smooth']: deriving the normals raises, after the vertex buffer was
    written; the vertex buffer is not what it was before the call. *)
Lemma failed_update_changes_vertex_buffer :
  let s : TestMesh := visual broken_triangle (PyStr "smooth") in
  fst (_update_data s) = Raise InvalidMeshError
  /\ vb_data (_vertices s) = replicate 300 (0, 0, 0)%Z
  /\ vb_data (_vertices (after _update_data s)) = triangle_points
  /\ _vertices (after _update_data s) <> _vertices s.
Proof. vm_compute. repeat split; discriminate. Qed.

Lemma failed_update_keeps_flag_and_program_witness :
  let s : TestMesh := visual broken_triangle (PyStr "smooth") in
  let s' := after _update_data s in
  _data_changed s' = _data_changed s /\ _program s' = _program s
  /\ _meshdata s' = _meshdata s /\ _shading s' = _shading s
  /\ _color s' = _color s.
Proof.
  intros s s'.
  apply (failed_update_keeps_flag_and_program s s' InvalidMeshError).
  vm_compute. reflexivity.
Defined.

Section MoreVisualFacts.

Context {F : Type} {SF : Scalar F} {MD : Type} {API : MeshDataAPI F MD}.

Implicit Types s : @Mesh F MD.

(** *** Construction *)

(** [__init__] checks the shading mode before anything else: a value
    outside [None], ['flat'], ['smooth'] makes the construction raise
    [AssertionError].  Otherwise it returns a visual that is marked dirty,
    has no representation chosen yet, holds 300 zero vertices and empty
    normal, index and color buffers, an unbound program, the given color and
    shading mode, and the given mesh or, without one, the mesh built from
    the arrays; the scene was notified once. *)
Theorem init_validates_and_builds (vs : option (list (vec3 F)))
    (fs : option (list face)) (vc fc : option (list (vec4 F)))
    (color : vec4 F) (meshdata : option MD) (value : py_value) :
  if py_in value [PyNone; PyStr "flat"; PyStr "smooth"] then
    exists s,
      __init__ vs fs vc fc color meshdata value = Ok s
      /\ _shading s = value /\ _color s = color
      /\ _meshdata s = default (MeshData vs fs vc fc) meshdata
      /\ _data_changed s = true /\ _indexed s = None
      /\ vb_data (_vertices s) = replicate 300 (lit 0, lit 0, lit 0)%Q
      /\ vb_data (_normals s) = [] /\ ib_data (_faces s) = []
      /\ vb_data (_colors s) = []
      /\ vert (_program s) = ∅ /\ frag (_program s) = ∅
      /\ gl_trace s = [visual_update]
      /\ constructed s
  else
    __init__ vs fs vc fc color meshdata value = Raise AssertionError.
Proof.
  unfold __init__, shading_setter, set_data, mesh_data_changed, update,
    assert, bind, modify, ret, raise.
  destruct (py_in value _); [|reflexivity].
  destruct meshdata; cbn; eexists; (split; [reflexivity|]);
    repeat split; reflexivity.
Qed.

(** *** [set_data] *)

(** [set_data] always marks the visual dirty and notifies the scene exactly
    once; it replaces the uniform color only when a color is passed; and it
    touches neither the buffers, nor the representation flag, nor the
    program, nor the shading mode. *)
Theorem set_data_marks_dirty_and_notifies (vs : option (list (vec3 F)))
    (fs : option (list face)) (vc fc : option (list (vec4 F)))
    (meshdata : option MD) (color : option (vec4 F)) s :
  exists s',
    set_data vs fs vc fc meshdata color s = (Ok tt, s')
    /\ _data_changed s' = true
    /\ gl_trace s' = (gl_trace s ++ [visual_update])%list
    /\ _color s' = default (_color s) color
    /\ _vertices s' = _vertices s /\ _normals s' = _normals s
    /\ _faces s' = _faces s /\ _colors s' = _colors s
    /\ _indexed s' = _indexed s /\ _program s' = _program s
    /\ _shading s' = _shading s.
Proof.
  unfold set_data, mesh_data_changed, update, bind, modify, ret.
  destruct meshdata, color; eexists; (split; [reflexivity|]);
    repeat split; reflexivity.
Qed.

(** *** Materialisation *)

(** Whatever its outcome, materialisation leaves alone the dirty flag, the
    mesh, the shading mode, the uniform color, the two varyings and the
    calls made so far; the normal, color and index buffers stay the same
    objects; and at most one new buffer object is created. *)
Theorem update_data_never_touches s :
  let s' := after _update_data s in
  _data_changed s' = _data_changed s /\ _meshdata s' = _meshdata s
  /\ _shading s' = _shading s /\ _color s' = _color s
  /\ _color_var s' = _color_var s /\ _normal_var s' = _normal_var s
  /\ gl_trace s' = gl_trace s
  /\ vb_id (_normals s') = vb_id (_normals s)
  /\ vb_id (_colors s') = vb_id (_colors s)
  /\ ib_id (_faces s') = ib_id (_faces s)
  /\ gl_next_id s <= gl_next_id s' <= S (gl_next_id s).
Proof.
  intros s'.
  assert (Hid : wp _update_data
                   (fun _ s'' => gl_next_id s'' <= S (gl_next_id s)) s).
  { unfold _update_data. wp_steps; lia. }
  pose proof (update_data_frame s) as Hf.
  destruct (_update_data s) as [r s''] eqn:E.
  apply (wp_run _ _ _ _ _ Hid) in E as H1.
  apply (wp_run _ _ _ _ _ Hf) in E as H2.
  unfold s', after. rewrite E. cbn. intuition.
Qed.


End MoreVisualFacts.

Section DrawFacts.

Context {F : Type} {SF : Scalar F} {MD : Type} {API : MeshDataAPI F MD}.

Implicit Types s : @Mesh F MD.

(** *** Drawing *)

(** [draw], statement by statement. *)
Lemma draw_unfold (event : DrawEvent F) s :
  draw event s =
  let s0 := set_trace (gl_trace s ++ [gloo_set_state "translucent" true
                                                     "front_and_back"]) s in
  match (if _data_changed s then _update_data s0 else (Ok tt, s0)) with
  | (Ok _, s1) =>
      let p := _program s1 in
      let s2 := set_program
                  (mkProgram (vcode p) (fcode p)
                     (<["transform" := render_transform_shader_map event]>
                        (vert p)) (frag p)) s1 in
      (Ok tt,
       set_trace (gl_trace s2
                  ++ [program_draw "triangles"
                        (if truthy (_indexed s1) then Some (ib_id (_faces s1))
                         else None)]) s2)
  | (Raise e, s1) => (Raise e, s1)
  end.
Proof.
  unfold draw, vert_setitem, when, bind, modify, gets, ret.
  cbv beta iota zeta. fields.
  destruct (_data_changed s).
  - destruct (_update_data _) as [[[]|e] s1]; [|reflexivity].
    cbv beta iota. fields. destruct (truthy (_indexed s1)); reflexivity.
  - cbv beta iota. fields. destruct (truthy (_indexed s)); reflexivity.
Qed.

(** A draw of a dirty visual that returns has set the render state, then
    materialised, bound the transform of the event, and issued one triangle
    draw call: with the index buffer exactly when shading is ['smooth'] and
    the mesh has no face-indexed data, without indices otherwise. *)
Theorem draw_submits_indexed_iff_smooth_shared (event : DrawEvent F) s s' :
  _data_changed s = true ->
  draw event s = (Ok tt, s') ->
  gl_trace s'
  = (gl_trace s
     ++ [gloo_set_state "translucent" true "front_and_back";
         program_draw "triangles"
           (if py_eq (_shading s) (PyStr "smooth")
               && negb (has_face_indexed_data (_meshdata s))
            then Some (ib_id (_faces s)) else None)])%list
  /\ vert (_program s') !! "transform"
     = Some (render_transform_shader_map event).
Proof.
  intros Hd H. rewrite draw_unfold, Hd in H. cbv zeta in H.
  destruct (_update_data _) as [[[]|e] s1] eqn:E; [|discriminate].
  injection H as <-. fields.
  pose proof (wp_run _ _ _ _ _ (update_data_frame _) E) as Hf.
  pose proof (wp_run _ _ _ _ _ (update_data_buffers _) E eq_refl) as Hb.
  fields. cbv zeta in Hb.
  destruct Hf as (_ & _ & _ & _ & _ & _ & Htr & _ & _ & Hib & _).
  split; [|apply lookup_insert_eq].
  rewrite Htr, <- app_assoc. cbn [app]. do 3 f_equal.
  destruct (py_eq (_shading s) (PyStr "smooth")
            && negb (has_face_indexed_data (_meshdata s))).
  - destruct Hb as (-> & _). cbn [truthy]. congruence.
  - destruct Hb as (-> & _). reflexivity.
Qed.



(** A draw of a visual that is not dirty does not materialise: the buffers
    and the representation flag are as they were, and the draw call follows
    the representation flag as it stands ([None] counts as not indexed). *)
Theorem clean_draw_reuses_buffers (event : DrawEvent F) s :
  _data_changed s = false ->
  exists s',
    draw event s = (Ok tt, s')
    /\ _vertices s' = _vertices s /\ _normals s' = _normals s
    /\ _faces s' = _faces s /\ _colors s' = _colors s
    /\ _indexed s' = _indexed s
    /\ gl_next_id s' = gl_next_id s
    /\ gl_trace s'
       = (gl_trace s
          ++ [gloo_set_state "translucent" true "front_and_back";
              program_draw "triangles"
                (match _indexed s with
                 | Some true => Some (ib_id (_faces s))
                 | _ => None
                 end)])%list
    /\ vert (_program s')
       = <["transform" := render_transform_shader_map event]>
           (vert (_program s))
    /\ frag (_program s') = frag (_program s).
Proof.
  intros Hd. rewrite draw_unfold, Hd. cbv zeta. fields.
  eexists. split; [reflexivity|]. fields.
  repeat split; auto.
  rewrite <- app_assoc. cbn [app]. do 3 f_equal.
  destruct (_indexed s) as [[]|]; reflexivity.
Qed.

(** [draw] never changes the mesh, the shading mode or the uniform color,
    and [set_data], the [shading] setter and [draw] all keep the two
    varyings of the visual, whether they return or raise. *)
Theorem methods_keep_varyings (vs : option (list (vec3 F)))
    (fs : option (list face)) (vc fc : option (list (vec4 F)))
    (meshdata : option MD) (color : option (vec4 F)) (value : py_value)
    (event : DrawEvent F) s :
  constructed s ->
  constructed (after (set_data vs fs vc fc meshdata color) s)
  /\ constructed (after (shading_setter value) s)
  /\ constructed (after _update_data s)
  /\ constructed (after (draw event) s).
Proof.
  intros [Hc Hn]. unfold constructed, after.
  split; [|split; [|split]].
  - unfold set_data, mesh_data_changed, update, bind, modify, ret.
    destruct meshdata, color; cbn; auto.
  - unfold shading_setter, assert, bind, modify, ret, raise.
    destruct (py_in value _); cbn; auto.
  - pose proof (update_data_frame s) as Hf.
    destruct (_update_data s) as [r s'] eqn:E.
    apply (wp_run _ _ _ _ _ Hf) in E. cbn.
    destruct E as (_ & _ & _ & _ & H1 & H2 & _). split; congruence.
  - rewrite draw_unfold. cbv zeta.
    destruct (_data_changed s).
    + pose proof (update_data_frame
                    (set_trace (gl_trace s ++ [gloo_set_state "translucent"
                                  true "front_and_back"]) s)) as Hf.
      destruct (_update_data _) as [r s'] eqn:E.
      apply (wp_run _ _ _ _ _ Hf) in E. fields.
      destruct E as (_ & _ & _ & _ & H1 & H2 & _).
      destruct r; cbn; fields; split; congruence.
    + cbn. fields. auto.
Qed.

End DrawFacts.

Section BufferFacts.

Context {F : Type} {SF : Scalar F} {MD : Type} {API : MeshDataAPI F MD}.

Implicit Types s : @Mesh F MD.

(** The representation follows from the shading mode and the mesh alone:
    after a successful materialisation the flag says indexed exactly when
    shading is ['smooth'] and the mesh has no face-indexed data.  On the
    indexed path the position buffer is updated in place and the index
    buffer gets the faces; on the expanded path the position buffer is a
    new object and the index buffer is left as it was. *)
Theorem representation_follows_shading s s' :
  _update_data s = (Ok tt, s') ->
  let indexed := py_eq (_shading s) (PyStr "smooth")
                 && negb (has_face_indexed_data (_meshdata s)) in
  _indexed s' = Some indexed
  /\ (if indexed
      then vb_id (_vertices s') = vb_id (_vertices s)
           /\ vertices (_meshdata s) indexed_None = Ok (vb_data (_vertices s'))
           /\ faces (_meshdata s) = Ok (ib_data (_faces s'))
      else vb_id (_vertices s') = gl_next_id s
           /\ vertices (_meshdata s) indexed_faces
              = Ok (vb_data (_vertices s'))
           /\ _faces s' = _faces s).
Proof.
  intros H indexed.
  pose proof (wp_run _ _ _ _ _ (update_data_buffers s) H eq_refl) as B.
  cbv zeta in B. fold indexed in B.
  destruct indexed; intuition.
Qed.

(** On the expanded path the normals follow the shading mode: per-vertex
    normals indexed by faces for ['smooth'] (a mesh with face-indexed
    data), per-face normals indexed by faces for ['flat'], and no write at
    all for [None]. *)
Theorem expanded_normals_follow_shading s s' :
  py_eq (_shading s) (PyStr "smooth")
    && negb (has_face_indexed_data (_meshdata s)) = false ->
  _update_data s = (Ok tt, s') ->
  (_shading s = PyStr "smooth" ->
   vertex_normals (_meshdata s) indexed_faces = Ok (vb_data (_normals s')))
  /\ (_shading s = PyStr "flat" ->
      face_normals (_meshdata s) indexed_faces = Ok (vb_data (_normals s')))
  /\ (_shading s = PyNone -> _normals s' = _normals s).
Proof.
  intros Hp H.
  pose proof (wp_run _ _ _ _ _ (update_data_buffers s) H eq_refl) as B.
  cbv zeta in B. rewrite Hp in B.
  destruct B as (_ & _ & _ & _ & Hn & _).
  repeat split; intros E; rewrite E in Hn; exact Hn.
Qed.

(** A mesh without colors leaves the color buffer alone, on both paths. *)
Theorem uncolored_mesh_keeps_color_buffer s s' :
  has_vertex_color (_meshdata s) = false ->
  has_face_color (_meshdata s) = false ->
  _update_data s = (Ok tt, s') ->
  _colors s' = _colors s.
Proof.
  intros Hvc Hfc H.
  pose proof (wp_run _ _ _ _ _ (update_data_buffers s) H eq_refl) as B.
  cbv zeta in B. rewrite Hvc, Hfc in B.
  destruct (_ && _); intuition.
Qed.

(** A mesh with per-face colors only gets them into the color buffer: one
    per face on the indexed path, one per face corner on the expanded
    path. *)
Theorem face_colors_alone_are_emitted s s' :
  has_vertex_color (_meshdata s) = false ->
  has_face_color (_meshdata s) = true ->
  _update_data s = (Ok tt, s') ->
  face_colors (_meshdata s)
    (if py_eq (_shading s) (PyStr "smooth")
        && negb (has_face_indexed_data (_meshdata s))
     then indexed_None else indexed_faces)
  = Ok (vb_data (_colors s')).
Proof.
  intros Hvc Hfc H.
  pose proof (wp_run _ _ _ _ _ (update_data_buffers s) H eq_refl) as B.
  cbv zeta in B. rewrite Hvc, Hfc in B.
  destruct (_ && _); intuition.
Qed.

(** The position input is the current position buffer, lifted to
    homogeneous coordinates by [vec3to4]. *)
Theorem position_is_lifted_vertex_buffer s s' :
  constructed s ->
  _update_data s = (Ok tt, s') ->
  vert (_program s') !! "position"
  = Some (Call (Function vec3to4_code ∅) [Attribute (vb_id (_vertices s'))]).
Proof.
  intros Hc H.
  destruct (wp_run _ _ _ _ _ (update_data_program s Hc) H eq_refl)
    as (Hpos & _).
  exact Hpos.
Qed.

End BufferFacts.

(** ** More statements on the test data *)

Lemma expanded_path_emits_vertex_colors_witness :
  let s : TestMesh := visual two_colored_triangle (PyStr "flat") in
  let s' := after _update_data s in
  _indexed s' = Some false
  /\ vertex_colors (_meshdata s) indexed_faces = Ok (vb_data (_colors s')).
Proof.
  intros s s'. apply (expanded_path_emits_vertex_colors s s');
    vm_compute; reflexivity.
Defined.


Lemma draw_submits_indexed_iff_smooth_shared_witness :
  let s : TestMesh := visual plain_triangle (PyStr "smooth") in
  let s' := after (draw some_event) s in
  gl_trace s'
  = (gl_trace s
     ++ [gloo_set_state "translucent" true "front_and_back";
         program_draw "triangles"
           (if py_eq (_shading s) (PyStr "smooth")
               && negb (has_face_indexed_data (_meshdata s))
            then Some (ib_id (_faces s)) else None)])%list
  /\ vert (_program s') !! "transform"
     = Some (render_transform_shader_map some_event).
Proof.
  intros s s'. apply (draw_submits_indexed_iff_smooth_shared some_event s s');
    vm_compute; reflexivity.
Defined.


Lemma clean_draw_reuses_buffers_witness :
  exists s',
    draw some_event clean_visual = (Ok tt, s')
    /\ _vertices s' = _vertices clean_visual
    /\ _normals s' = _normals clean_visual
    /\ _faces s' = _faces clean_visual /\ _colors s' = _colors clean_visual
    /\ _indexed s' = _indexed clean_visual
    /\ gl_next_id s' = gl_next_id clean_visual
    /\ gl_trace s'
       = (gl_trace clean_visual
          ++ [gloo_set_state "translucent" true "front_and_back";
              program_draw "triangles"
                (match _indexed clean_visual with
                 | Some true => Some (ib_id (_faces clean_visual))
                 | _ => None
                 end)])%list
    /\ vert (_program s')
       = <["transform" := render_transform_shader_map some_event]>
           (vert (_program clean_visual))
    /\ frag (_program s') = frag (_program clean_visual).
Proof.
  apply (clean_draw_reuses_buffers some_event clean_visual). reflexivity.
Defined.

Lemma methods_keep_varyings_witness :
  let s : TestMesh := visual plain_triangle (PyStr "flat") in
  constructed (after (set_data None None None None None (Some red)) s)
  /\ constructed (after (shading_setter (PyInt 3)) s)
  /\ constructed (after _update_data s)
  /\ constructed (after (draw some_event) s).
Proof.
  intros s.
  apply (methods_keep_varyings None None None None None (Some red) (PyInt 3)
                               some_event s).
  split; reflexivity.
Defined.

Lemma representation_follows_shading_witness :
  let s : TestMesh := visual face_indexed_triangle (PyStr "smooth") in
  let s' := after _update_data s in
  let indexed := py_eq (_shading s) (PyStr "smooth")
                 && negb (has_face_indexed_data (_meshdata s)) in
  _indexed s' = Some indexed
  /\ (if indexed
      then vb_id (_vertices s') = vb_id (_vertices s)
           /\ vertices (_meshdata s) indexed_None = Ok (vb_data (_vertices s'))
           /\ faces (_meshdata s) = Ok (ib_data (_faces s'))
      else vb_id (_vertices s') = gl_next_id s
           /\ vertices (_meshdata s) indexed_faces
              = Ok (vb_data (_vertices s'))
           /\ _faces s' = _faces s).
Proof.
  intros s s'. apply (representation_follows_shading s s').
  vm_compute. reflexivity.
Defined.

Lemma expanded_normals_follow_shading_witness :
  let s : TestMesh := visual face_indexed_triangle (PyStr "smooth") in
  let s' := after _update_data s in
  (_shading s = PyStr "smooth" ->
   vertex_normals (_meshdata s) indexed_faces = Ok (vb_data (_normals s')))
  /\ (_shading s = PyStr "flat" ->
      face_normals (_meshdata s) indexed_faces = Ok (vb_data (_normals s')))
  /\ (_shading s = PyNone -> _normals s' = _normals s).
Proof.
  intros s s'. apply (expanded_normals_follow_shading s s');
    vm_compute; reflexivity.
Defined.

Lemma uncolored_mesh_keeps_color_buffer_witness :
  let s : TestMesh := visual plain_triangle (PyStr "smooth") in
  _colors (after _update_data s) = _colors s.
Proof.
  intros s. apply (uncolored_mesh_keeps_color_buffer s (after _update_data s));
    vm_compute; reflexivity.
Defined.

Lemma face_colors_alone_are_emitted_witness :
  let s : TestMesh := visual face_colored_triangle (PyStr "flat") in
  face_colors (_meshdata s)
    (if py_eq (_shading s) (PyStr "smooth")
        && negb (has_face_indexed_data (_meshdata s))
     then indexed_None else indexed_faces)
  = Ok (vb_data (_colors (after _update_data s))).
Proof.
  intros s.
  apply (face_colors_alone_are_emitted s (after _update_data s));
    vm_compute; reflexivity.
Defined.

Lemma position_is_lifted_vertex_buffer_witness :
  let s : TestMesh := visual plain_triangle PyNone in
  let s' := after _update_data s in
  vert (_program s') !! "position"
  = Some (Call (Function vec3to4_code ∅) [Attribute (vb_id (_vertices s'))]).
Proof.
  intros s s'. apply (position_is_lifted_vertex_buffer s s').
  - split; reflexivity.
  - vm_compute. reflexivity.
Defined.
